(** * SchoolDigger MCP server: the request/response mapping of [server.py]

    A shallow embedding of [server.py]: the five tools, the shared primitive
    [call_school_digger_api] and the static resource, followed by the
    properties of the request they hand to the HTTP library and of the value
    they give back.

    Python values are a small inductive type, a [dict] is an insertion-ordered
    association list with unique keys (the order in which CPython iterates a
    dict, hence the order of the query string), and the effects of a call (the
    request handed to [requests.get], the line written to the log, an
    exception) are threaded through a state-and-exception monad. *)

From Stdlib Require Import ZArith String Ascii List Bool Lia.
From Stdlib Require Import Numbers.DecimalString.
Import ListNotations.

Local Open Scope string_scope.
Local Open Scope list_scope.
Local Open Scope Z_scope.

(** ** Python values *)

#[local] Set Warnings "-register-all".

Inductive value : Type :=
  | VNone
  | VBool (b : bool)
  | VInt (n : Z)
  | VStr (s : string)
  | VList (l : list value)
  | VDict (d : list (string * value)).

(** A dict with string keys, in insertion order. *)
Definition dict : Type := list (string * value).

(** Truth value of an object in an [if]. *)
Definition truthy (v : value) : bool :=
  match v with
  | VNone => false
  | VBool b => b
  | VInt n => negb (n =? 0)
  | VStr s => negb (s =? "")%string
  | VList l => match l with [] => false | _ :: _ => true end
  | VDict d => match d with [] => false | _ :: _ => true end
  end.

(** An [Optional[str]] as a value: [None] or the string. *)
Definition opt_str (o : option string) : value :=
  match o with
  | None => VNone
  | Some s => VStr s
  end.

(** A keyword argument with a default: [None] is an argument the caller left
    out, which the signature binds to the default. *)
Definition arg_default {A : Type} (dflt : A) (a : option A) : A :=
  match a with
  | None => dflt
  | Some x => x
  end.

Module PyDict.

(** [d[k]], as [dict.get(k)]: [None] when the key is absent. *)
Fixpoint getitem (d : dict) (k : string) : option value :=
  match d with
  | [] => None
  | (k', v) :: d' => if (k' =? k)%string then Some v else getitem d' k
  end.

(** [d[k] = v]: an existing key keeps its place and takes the new value, a
    new key goes last. *)
Fixpoint setitem (d : dict) (k : string) (v : value) : dict :=
  match d with
  | [] => [(k, v)]
  | (k', v') :: d' =>
      if (k' =? k)%string then (k, v) :: d' else (k', v') :: setitem d' k v
  end.

(** [d.update(other)]: [d[k] = v] for each item of [other], in its order. *)
Definition update (d other : dict) : dict :=
  fold_left (fun acc kv => setitem acc (fst kv) (snd kv)) other d.

(** A dict display [{k1: v1, ..., kn: vn}]. *)
Definition literal (items : list (string * value)) : dict :=
  update [] items.

Definition keys (d : dict) : list string := map fst d.

End PyDict.

(** ** Strings *)

Fixpoint mem_ascii (c : ascii) (chars : string) : bool :=
  match chars with
  | EmptyString => false
  | String c' rest => if Ascii.eqb c c' then true else mem_ascii c rest
  end.

(** [s.lstrip(chars)]: drop the leading characters that occur in [chars]. *)
Fixpoint lstrip (chars s : string) : string :=
  match s with
  | EmptyString => EmptyString
  | String c rest => if mem_ascii c chars then lstrip chars rest else s
  end.

(** [str(n)] of an int. *)
Definition str_of_int (n : Z) : string :=
  NilEmpty.string_of_int (Z.to_int n).

(** ** Exceptions and outcomes *)

(** The exception classes the code tells apart: [except
    requests.exceptions.RequestException] catches the class and its
    subclasses, nothing else. *)
Inductive exc_class : Type :=
  | RequestException      (* the base class, or a subclass not listed here *)
  | ConnectionError
  | Timeout
  | HTTPError
  | JSONDecodeError       (* requests.exceptions.JSONDecodeError *)
  | NotRequestException.  (* any class outside the hierarchy, e.g. ValueError *)

Definition is_RequestException (c : exc_class) : bool :=
  match c with
  | NotRequestException => false
  | _ => true
  end.

Record exn : Type := mkExn {
  exc_type : exc_class;
  exc_str : string             (* str(e) *)
  }.

Inductive outcome (A : Type) : Type :=
  | Returns (a : A)
  | Raises (e : exn).
Arguments Returns {A} a.
Arguments Raises {A} e.

(** ** The HTTP library and the log, as seen from [server.py]

    [requests] is a third-party library: what the network answers is left
    open (an oracle of the process), and the two methods of a response that
    [server.py] calls follow the library's documented behaviour. *)

Record Request : Type := mkRequest {
  req_url : string;            (* first argument of requests.get *)
  req_params : dict            (* its params= keyword *)
  }.

Record Response : Type := mkResponse {
  status_code : Z;
  reason : string;
  resp_url : string;           (* response.url, the final encoded URL *)
  resp_json : outcome value    (* what response.json() does: the decoded body,
                                  or the exception of a body that does not
                                  decode *)
  }.

(** What [requests.get] does for a request, given the requests issued before
    it: it returns a response, or raises (connection refused, timeout, ...). *)
Definition Net : Type := list Request -> Request -> outcome Response.

Record State : Type := mkState {
  sent : list Request;         (* GET requests issued so far, oldest first *)
  logged : list string         (* messages passed to logging.error *)
  }.

Definition M (A : Type) : Type := State -> outcome A * State.

Definition ret {A : Type} (a : A) : M A := fun st => (Returns a, st).

Definition raise {A : Type} (e : exn) : M A := fun st => (Raises e, st).

Definition bind {A B : Type} (m : M A) (k : A -> M B) : M B :=
  fun st =>
    match m st with
    | (Returns a, st') => k a st'
    | (Raises e, st') => (Raises e, st')
    end.

(** [try: body / except <classes> as e: handler e]. *)
Definition try_except {A : Type} (body : M A) (catches : exc_class -> bool)
    (handler : exn -> M A) : M A :=
  fun st =>
    match body st with
    | (Returns a, st') => (Returns a, st')
    | (Raises e, st') =>
        if catches (exc_type e) then handler e st' else (Raises e, st')
    end.

Declare Scope py_scope.
Delimit Scope py_scope with py.
Notation "x <- m ;; k" := (bind m (fun x => k))
  (at level 61, m at next level, right associativity) : py_scope.
Notation "m ;; k" := (bind m (fun _ => k))
  (at level 61, right associativity) : py_scope.
Local Open Scope py_scope.

Module Requests.

(** [requests.get(url, params=params)]: one GET request leaves the process. *)
Definition get (net : Net) (url : string) (params : dict) : M Response :=
  fun st =>
    let req := mkRequest url params in
    (net (sent st) req, mkState (sent st ++ [req]) (logged st)).

(** [raise_for_status] names a 4xx status a client error and a 5xx status a
    server error; no other status is an error to it. *)
Definition error_kind (status : Z) : option string :=
  if (400 <=? status) && (status <? 500) then Some "Client"
  else if (500 <=? status) && (status <? 600) then Some "Server"
  else None.

(** The [HTTPError] that [raise_for_status] builds for a response, if any:
    its message is [<status> <kind> Error: <reason> for url: <url>]. *)
Definition http_error (r : Response) : option exn :=
  match error_kind (status_code r) with
  | Some kind =>
      Some (mkExn HTTPError
              (str_of_int (status_code r) ++ " " ++ kind ++ " Error: "
                 ++ reason r ++ " for url: " ++ resp_url r)%string)
  | None => None
  end.

(** [response.raise_for_status()]. *)
Definition raise_for_status (r : Response) : M unit :=
  match http_error r with
  | Some e => raise e
  | None => ret tt
  end.

(** [response.json()]. *)
Definition json (r : Response) : M value :=
  fun st => (resp_json r, st).

End Requests.

Module Logging.

(** [logging.error(msg)]. *)
Definition error (msg : string) : M unit :=
  fun st => (Returns tt, mkState (sent st) (logged st ++ [msg])).

End Logging.

(** ** [server.py] *)

Definition SCHOOL_DIGGER_BASE_API : string := "https://api.schooldigger.com/v2.3/".

Section Server.

(** [APP_ID = os.getenv("SCHOOLDIGGER_API_ID")] and [APP_KEY], read once
    when the module is loaded: [None] when the variable is not set. *)
Variables APP_ID APP_KEY : option string.

(** The network the process talks to. *)
Variable net : Net.

(** Lines 24-36.  The assignment to [url] is the first statement of the
    [try] block and cannot raise, so it is bound ahead of it, where the
    handler sees it as it does in Python. *)
Definition call_school_digger_api (endpoint : string) (params : option dict)
    : M value :=
  let base_params :=
    PyDict.literal [("appID", opt_str APP_ID); ("appKey", opt_str APP_KEY)] in
  let base_params :=
    match params with
    | Some d => if truthy (VDict d) then PyDict.update base_params d
                else base_params
    | None => base_params
    end in
  let url := (SCHOOL_DIGGER_BASE_API ++ lstrip "/" endpoint)%string in
  try_except
    (response <- Requests.get net url base_params ;;
     Requests.raise_for_status response ;;
     Requests.json response)
    is_RequestException
    (fun e =>
       Logging.error
         ("Error making request to " ++ url ++ ": " ++ exc_str e)%string ;;
       ret (VDict [("error", VStr (exc_str e))])).

(** [if x: params[key] = x] for an [Optional[str]] argument [x]. *)
Definition set_if (x : option string) (key : string) (params : dict) : dict :=
  if truthy (opt_str x) then PyDict.setitem params key (opt_str x)
  else params.

(** Lines 39-75.  [sort_by] and [per_page] are [None] when the caller leaves
    them out. *)
Definition search_schools (query city state zip_code school_level : option string)
    (sort_by : option string) (per_page : option Z) : M value :=
  let sort_by := arg_default "rank"%string sort_by in
  let per_page := arg_default 5 per_page in
  let params :=
    PyDict.literal [("perPage", VInt per_page); ("sortBy", VStr sort_by)] in
  let params := set_if query "q" params in
  let params := set_if city "city" params in
  let params := set_if state "st" params in
  let params := set_if zip_code "zip" params in
  let params := set_if school_level "level" params in
  call_school_digger_api "schools" (Some params).

(** Lines 78-91. *)
Definition search_autocomplete_schools (query : string)
    (max_results : option Z) : M value :=
  let max_results := arg_default 10 max_results in
  let params :=
    PyDict.literal [("q", VStr query); ("returnCount", VInt max_results)] in
  call_school_digger_api "autocomplete/schools" (Some params).

(** Lines 94-104. *)
Definition get_school_details (school_id : string) : M value :=
  call_school_digger_api ("schools/" ++ school_id)%string None.

(** Lines 107-140. *)
Definition search_districts (city state query zip_code : option string)
    (sort_by : option string) (per_page : option Z) : M value :=
  let sort_by := arg_default "rank"%string sort_by in
  let per_page := arg_default 5 per_page in
  let params :=
    PyDict.literal [("perPage", VInt per_page); ("sort", VStr sort_by)] in
  let params := set_if city "city" params in
  let params := set_if state "st" params in
  let params := set_if zip_code "zip" params in
  let params := set_if query "q" params in
  call_school_digger_api "districts" (Some params).

(** Lines 143-153. *)
Definition get_district_details (district_id : string) : M value :=
  call_school_digger_api ("districts/" ++ district_id)%string None.

(** Lines 155-164: the resource [schooldigger://school-levels].  It runs in
    the same process as the tools, so it is given the same type. *)
Definition get_school_levels : M string :=
  ret "
            Elementary: Grades K-5
            Middle: Grades 6-8  
            High: Grades 9-12
            Private: Private institutions
            Alt: Alternative education programs
            ".

(** The catalogue that [@mcp.tool()] registers: a call of one of the five
    tools with its arguments. *)
Inductive tool_call : Type :=
| SearchSchools (query city state zip_code school_level : option string)
    (sort_by : option string) (per_page : option Z)
| SearchAutocompleteSchools (query : string) (max_results : option Z)
| GetSchoolDetails (school_id : string)
| SearchDistricts (city state query zip_code : option string)
    (sort_by : option string) (per_page : option Z)
| GetDistrictDetails (district_id : string).

Definition invoke (c : tool_call) : M value :=
  match c with
  | SearchSchools query city state zip_code school_level sort_by per_page =>
      search_schools query city state zip_code school_level sort_by per_page
  | SearchAutocompleteSchools query max_results =>
      search_autocomplete_schools query max_results
  | GetSchoolDetails school_id => get_school_details school_id
  | SearchDistricts city state query zip_code sort_by per_page =>
      search_districts city state query zip_code sort_by per_page
  | GetDistrictDetails district_id => get_district_details district_id
  end.

End Server.


(** ** Vocabulary of the properties *)

(** The value a failed call gives back: [{"error": msg}]. *)
Definition error_object (msg : string) : value := VDict [("error", VStr msg)].

Section Upstream.

Variables APP_ID APP_KEY : option string.

(** The dict that line 25 builds. *)
Definition credentials : dict :=
  [("appID", opt_str APP_ID); ("appKey", opt_str APP_KEY)].

(** The request that a call hands to [requests.get]: lines 25-27 and 30. *)
Definition upstream_request (endpoint : string) (params : option dict) : Request :=
  mkRequest (SCHOOL_DIGGER_BASE_API ++ lstrip "/" endpoint)%string
    match params with
    | Some d => PyDict.update credentials d
    | None => credentials
    end.

End Upstream.

(** A dict as Python holds it has no key twice. *)
Definition wf_dict (d : dict) : Prop := NoDup (PyDict.keys d).

(** An optional argument the caller left unset, or gave as the empty string. *)
Definition unset_or_empty (x : option string) : Prop :=
  x = None \/ x = Some ""%string.

(** A transport-level failure of a GET request, and the exception [e] that the
    library raises for it: [requests.get] raises a connection error or a
    timeout, or it returns a response with a 4xx or 5xx status, for which
    [raise_for_status] raises. *)
Inductive transport_failure : outcome Response -> exn -> Prop :=
| connection_error (e : exn) :
    exc_type e = ConnectionError -> transport_failure (Raises e) e
| timeout (e : exn) :
    exc_type e = Timeout -> transport_failure (Raises e) e
| error_status (r : Response) (e : exn) :
    400 <= status_code r < 600 ->
    Requests.http_error r = Some e ->
    transport_failure (Returns r) e.

(** The same with every status outside 200..299 counted as a failure. *)
Inductive failure_or_non_2xx : outcome Response -> Prop :=
| f_connection_error (e : exn) :
    exc_type e = ConnectionError -> failure_or_non_2xx (Raises e)
| f_timeout (e : exn) :
    exc_type e = Timeout -> failure_or_non_2xx (Raises e)
| f_non_2xx (r : Response) :
    ~ (200 <= status_code r < 300) -> failure_or_non_2xx (Returns r).

(** Reading the text of the school-levels resource: its lines, and the code
    that a line names ahead of its colon. *)
Definition newline : ascii := "010"%char.

Fixpoint split_lines (s : string) : list string :=
  match s with
  | EmptyString => [EmptyString]
  | String c rest =>
      match split_lines rest with
      | [] => [EmptyString]    (* not reached: the result is never empty *)
      | l :: ls => if Ascii.eqb c newline then EmptyString :: l :: ls
                   else String c l :: ls
      end
  end.

Fixpoint before_colon (s : string) : option string :=
  match s with
  | EmptyString => None
  | String c rest =>
      if Ascii.eqb c ":"%char then Some EmptyString
      else option_map (String c) (before_colon rest)
  end.

Definition level_codes (text : string) : list string :=
  flat_map (fun l => match before_colon (lstrip " " l) with
                     | Some code => [code]
                     | None => []
                     end)
           (split_lines text).

(** Concrete worlds used to exercise the statements. *)
Definition st0 : State := mkState [] [].

Definition net_refused : Net :=
  fun _ _ => Raises (mkExn ConnectionError "Connection refused").

Definition net_not_found : Net :=
  fun _ req => Returns (mkResponse 404 "Not Found" (req_url req)
                          (Returns (VDict []))).

(** An upstream that answers 300 Multiple Choices with a JSON body. *)
Definition net_multiple_choices : Net :=
  fun _ req => Returns (mkResponse 300 "Multiple Choices" (req_url req)
                          (Returns (VDict [("schoolList", VList [])]))).

(** An upstream that answers 200 with a JSON body. *)
Definition net_ok : Net :=
  fun _ req => Returns (mkResponse 200 "OK" (req_url req)
                          (Returns (VDict [("schoolList", VList [])]))).

(** An upstream that answers 200 with a body that is not JSON, under a
    library whose [json()] raises a [ValueError]. *)
Definition net_value_error : Net :=
  fun _ req => Returns (mkResponse 200 "OK" (req_url req)
                          (Raises (mkExn NotRequestException
                                     "Expecting value: line 1 column 1 (char 0)"))).

(** The same body under a library whose [json()] raises
    [requests.exceptions.JSONDecodeError]. *)
Definition net_bad_json : Net :=
  fun _ req => Returns (mkResponse 200 "OK" (req_url req)
                          (Raises (mkExn JSONDecodeError
                                     "Expecting value: line 1 column 1 (char 0)"))).

(** An upstream that fails the first request and answers the later ones. *)
Definition net_flaky : Net :=
  fun history req =>
    match history with
    | [] => Raises (mkExn Timeout "Read timed out.")
    | _ :: _ => Returns (mkResponse 200 "OK" (req_url req)
                           (Returns (VDict [("districtList", VList [])])))
    end.

(** What [if x: params[key] = x] adds to a dict that has no [key]: the item,
    or nothing. *)
Definition param_if_set (key : string) (x : option string) : dict :=
  if truthy (opt_str x) then [(key, opt_str x)] else [].

(** Membership of a key in a list of keys. *)
Definition mem_key (k : string) (ks : list string) : bool :=
  existsb (String.eqb k) ks.

Definition starts_with_slash (s : string) : bool :=
  match s with
  | String c _ => Ascii.eqb c "/"%char
  | EmptyString => false
  end.

(** ** Facts about dicts *)

Module PyDictFacts.
Import PyDict.

Lemma getitem_setitem_same (d : dict) (k : string) (v : value) :
  getitem (setitem d k v) k = Some v.
Proof.
  induction d as [|[k' v'] d IH]; simpl.
  - now rewrite String.eqb_refl.
  - destruct (k' =? k)%string eqn:E; simpl.
    + now rewrite String.eqb_refl.
    + now rewrite E.
Qed.

Lemma getitem_setitem_other (d : dict) (k k' : string) (v : value) :
  (k =? k')%string = false ->
  getitem (setitem d k v) k' = getitem d k'.
Proof.
  intros Hne. induction d as [|[k0 v0] d IH]; simpl.
  - now rewrite Hne.
  - destruct (k0 =? k)%string eqn:E; simpl.
    + apply String.eqb_eq in E. subst k0. now rewrite Hne.
    + now rewrite IH.
Qed.

Lemma keys_setitem_present (d : dict) (k : string) (v : value) :
  In k (keys d) -> keys (setitem d k v) = keys d.
Proof.
  induction d as [|[k' v'] d IH]; simpl; [tauto|].
  intros Hin. destruct (k' =? k)%string eqn:E; simpl.
  - apply String.eqb_eq in E. now subst.
  - f_equal. apply IH. destruct Hin as [->|]; [|assumption].
    now rewrite String.eqb_refl in E.
Qed.

Lemma keys_setitem_absent (d : dict) (k : string) (v : value) :
  ~ In k (keys d) -> keys (setitem d k v) = keys d ++ [k].
Proof.
  induction d as [|[k' v'] d IH]; simpl; [reflexivity|].
  intros Hnin. destruct (k' =? k)%string eqn:E; simpl.
  - apply String.eqb_eq in E. tauto.
  - f_equal. apply IH. tauto.
Qed.

(** Assignment keeps a dict a dict. *)
Lemma setitem_wf (d : dict) (k : string) (v : value) :
  wf_dict d -> wf_dict (setitem d k v).
Proof.
  unfold wf_dict. intros Hwf.
  destruct (in_dec string_dec k (keys d)) as [Hin|Hnin].
  - now rewrite keys_setitem_present.
  - rewrite keys_setitem_absent by assumption.
    apply NoDup_app; [assumption | repeat constructor; simpl; tauto |].
    intros x Hx [<-|[]]. contradiction.
Qed.

Lemma update_cons (d other : dict) (k : string) (v : value) :
  update d ((k, v) :: other) = update (setitem d k v) other.
Proof. reflexivity. Qed.

Lemma update_wf (d other : dict) : wf_dict d -> wf_dict (update d other).
Proof.
  revert d. induction other as [|[k v] other IH]; intros d Hwf.
  - exact Hwf.
  - rewrite update_cons. apply IH. now apply setitem_wf.
Qed.

Lemma getitem_None_not_in (d : dict) (k : string) :
  getitem d k = None <-> ~ In k (keys d).
Proof.
  induction d as [|[k' v'] d IH]; simpl; [tauto|].
  destruct (k' =? k)%string eqn:E.
  - apply String.eqb_eq in E. split; [discriminate | tauto].
  - apply String.eqb_neq in E. tauto.
Qed.

(** A key that [other] does not have keeps the value it had in [d]. *)
Lemma getitem_update_absent (d other : dict) (k : string) :
  getitem other k = None ->
  getitem (update d other) k = getitem d k.
Proof.
  revert d. induction other as [|[k' v'] other IH]; intros d; simpl.
  - reflexivity.
  - destruct (k' =? k)%string eqn:E; [discriminate|].
    intros Hnone. change (getitem (update (setitem d k' v') other) k = getitem d k).
    rewrite IH by assumption. now apply getitem_setitem_other.
Qed.

(** A key that [other] has takes the value it has there. *)
Lemma getitem_update_present (d other : dict) (k : string) (v : value) :
  wf_dict other ->
  getitem other k = Some v ->
  getitem (update d other) k = Some v.
Proof.
  revert d. induction other as [|[k' v'] other IH]; intros d Hwf; simpl.
  - discriminate.
  - change (fold_left _ other (setitem d k' v')) with (update (setitem d k' v') other).
    unfold wf_dict in Hwf. simpl in Hwf. inversion Hwf as [|? ? Hnin Hwf']. subst.
    destruct (k' =? k)%string eqn:E.
    + apply String.eqb_eq in E. subst k'. intros [= ->].
      rewrite getitem_update_absent.
      * apply getitem_setitem_same.
      * now apply getitem_None_not_in.
    + intros Hsome. now apply IH.
Qed.

End PyDictFacts.

(** ** The shared primitive *)

Section CallFacts.

Variables APP_ID APP_KEY : option string.
Variable net : Net.

Let call := call_school_digger_api APP_ID APP_KEY net.
Let upstream_request := upstream_request APP_ID APP_KEY.

Lemma base_params_eq (params : option dict) :
  match params with
  | Some d =>
      if truthy (VDict d)
      then PyDict.update
             (PyDict.literal [("appID", opt_str APP_ID); ("appKey", opt_str APP_KEY)]) d
      else PyDict.literal [("appID", opt_str APP_ID); ("appKey", opt_str APP_KEY)]
  | None => PyDict.literal [("appID", opt_str APP_ID); ("appKey", opt_str APP_KEY)]
  end = req_params (upstream_request "" params).
Proof. destruct params as [[|kv d]|]; reflexivity. Qed.

(** What a call does, by the answer of the network: the request is issued
    whatever happens next; a [RequestException] from [requests.get], from
    [raise_for_status] or from [json] is logged and turned into the error
    object; any other exception leaves the function. *)
Lemma call_school_digger_api_run (endpoint : string) (params : option dict)
    (st : State) :
  let req := upstream_request endpoint params in
  let st1 := mkState (sent st ++ [req]) (logged st) in
  let failed (e : exn) :=
    if is_RequestException (exc_type e)
    then (Returns (error_object (exc_str e)),
          mkState (sent st1)
            (logged st1 ++ ["Error making request to " ++ req_url req ++ ": "
                              ++ exc_str e]%string))
    else (Raises e, st1) in
  call endpoint params st =
  match net (sent st) req with
  | Raises e => failed e
  | Returns r =>
      match Requests.http_error r with
      | Some e => failed e
      | None =>
          match resp_json r with
          | Returns v => (Returns v, st1)
          | Raises e => failed e
          end
      end
  end.
Proof.
  unfold call, call_school_digger_api. rewrite base_params_eq.
  unfold try_except, bind, Requests.get, Requests.raise_for_status,
    Requests.json, Logging.error, ret, raise; simpl.
  destruct (net _ _) as [r|e]; [|reflexivity].
  destruct (Requests.http_error r) as [e|]; [reflexivity|].
  destruct (resp_json r); reflexivity.
Qed.

(** Every call issues exactly one request, the same whatever the network
    answers and whatever happened before. *)
Lemma call_school_digger_api_sent (endpoint : string) (params : option dict)
    (st : State) :
  sent (snd (call endpoint params st)) =
  sent st ++ [upstream_request endpoint params].
Proof.
  rewrite call_school_digger_api_run.
  destruct (net _ _) as [r|e].
  - destruct (Requests.http_error r) as [e|].
    + destruct (is_RequestException _); reflexivity.
    + destruct (resp_json r) as [v|e]; [reflexivity|].
      destruct (is_RequestException _); reflexivity.
  - destruct (is_RequestException _); reflexivity.
Qed.

Lemma http_error_type (r : Response) (e : exn) :
  Requests.http_error r = Some e -> exc_type e = HTTPError.
Proof.
  unfold Requests.http_error.
  destruct (Requests.error_kind _); intros [= <-]; reflexivity.
Qed.

Lemma http_error_status (r : Response) :
  400 <= status_code r < 600 <-> exists e, Requests.http_error r = Some e.
Proof.
  unfold Requests.http_error, Requests.error_kind.
  destruct (400 <=? status_code r) eqn:E1, (status_code r <? 500) eqn:E2,
    (500 <=? status_code r) eqn:E3, (status_code r <? 600) eqn:E4; simpl;
    split; try (intros [e He]; discriminate He); try lia; eauto.
Qed.

Lemma transport_failure_caught (o : outcome Response) (e : exn) :
  transport_failure o e -> is_RequestException (exc_type e) = true.
Proof.
  intros [e' H|e' H|r e' _ H].
  - now rewrite H.
  - now rewrite H.
  - now rewrite (http_error_type _ _ H).
Qed.

(** A transport failure of the request never leaves the function: it is
    logged with the URL, and the error object is the result. *)
Lemma call_school_digger_api_failure (endpoint : string) (params : option dict)
    (st : State) (e : exn) :
  let req := upstream_request endpoint params in
  transport_failure (net (sent st) req) e ->
  call endpoint params st =
  (Returns (error_object (exc_str e)),
   mkState (sent st ++ [req])
     (logged st ++ ["Error making request to " ++ req_url req ++ ": "
                      ++ exc_str e]%string)).
Proof.
  intros req Hfail. rewrite call_school_digger_api_run. fold req.
  pose proof (transport_failure_caught _ _ Hfail) as Hc.
  inversion Hfail as [e' H Ho|e' H Ho|r e' Hs H Ho]; subst e'.
  - now rewrite Hc.
  - now rewrite Hc.
  - rewrite H. now rewrite Hc.
Qed.

End CallFacts.

(** ** The tools *)

Module ToolFacts.
Import PyDict PyDictFacts.

Lemma getitem_update (d other : dict) (k : string) :
  wf_dict other ->
  getitem (update d other) k =
  match getitem other k with
  | Some v => Some v
  | None => getitem d k
  end.
Proof.
  intros Hwf. destruct (getitem other k) as [v|] eqn:E.
  - now apply getitem_update_present.
  - now apply getitem_update_absent.
Qed.

Lemma set_if_wf (x : option string) (key : string) (d : dict) :
  wf_dict d -> wf_dict (set_if x key d).
Proof.
  unfold set_if. destruct (truthy _); [apply setitem_wf | trivial].
Qed.

Lemma getitem_set_if_other (x : option string) (key k : string) (d : dict) :
  (key =? k)%string = false ->
  getitem (set_if x key d) k = getitem d k.
Proof.
  unfold set_if. destruct (truthy _); [apply getitem_setitem_other | trivial].
Qed.

Lemma getitem_set_if_same (x : option string) (key : string) (d : dict) :
  getitem (set_if x key d) key =
  if truthy (opt_str x) then Some (opt_str x) else getitem d key.
Proof.
  unfold set_if. destruct (truthy _); [apply getitem_setitem_same | trivial].
Qed.

Lemma unset_or_empty_falsy (x : option string) :
  unset_or_empty x -> truthy (opt_str x) = false.
Proof. intros [->| ->]; reflexivity. Qed.

Lemma literal2_wf (k1 k2 : string) (v1 v2 : value) :
  wf_dict (literal [(k1, v1); (k2, v2)]).
Proof. apply update_wf. constructor. Qed.

Create HintDb pydict.
#[export] Hint Resolve set_if_wf literal2_wf : pydict.

(** Rewriting a lookup through the assignments of a tool body. *)
Ltac lookup :=
  repeat first
    [ rewrite getitem_update by auto 10 with pydict
    | rewrite getitem_set_if_same
    | rewrite getitem_set_if_other by reflexivity ];
  simpl getitem.

(** Every tool is one call of the shared primitive, with an endpoint and
    parameters that depend on its arguments only, and its parameters never
    have a credential key. *)
Lemma invoke_is_call (c : tool_call) :
  exists (endpoint : string) (params : option dict),
    (forall APP_ID APP_KEY net,
        invoke APP_ID APP_KEY net c =
        call_school_digger_api APP_ID APP_KEY net endpoint params) /\
    (forall d, params = Some d ->
        wf_dict d /\ getitem d "appID" = None /\ getitem d "appKey" = None).
Proof.
  destruct c; simpl; unfold search_schools, search_autocomplete_schools,
    get_school_details, search_districts, get_district_details;
    do 2 eexists; (split; [intros; reflexivity|]);
    intros d [= <-]; (split; [auto 10 with pydict|]); lookup; auto.
Qed.

(** Every invocation issues exactly one request, which depends on the
    arguments and the credentials only. *)
Lemma invoke_sent (APP_ID APP_KEY : option string) (c : tool_call) :
  exists req : Request,
    forall (net : Net) (st : State),
      sent (snd (invoke APP_ID APP_KEY net c st)) = sent st ++ [req].
Proof.
  destruct (invoke_is_call c) as (endpoint & params & Hcall & _).
  exists (upstream_request APP_ID APP_KEY endpoint params). intros net st.
  rewrite Hcall. apply call_school_digger_api_sent.
Qed.

End ToolFacts.

(** ** Properties of the request/response mapping *)

Section Properties.
Import PyDict PyDictFacts ToolFacts.

Variables APP_ID APP_KEY : option string.
Variable net : Net.

(** C1, as amended: for every tool call whose upstream request fails at the
    transport level -- [requests.get] raises a connection error or a timeout,
    or the response has a 4xx or 5xx status -- nothing is raised past
    [call_school_digger_api]: the invocation returns [{"error": str(e)}] for
    the exception [e] of the failure, after issuing the one request and
    logging the URL and the error. *)
Theorem transport_failure_gives_error_object (c : tool_call) (st : State)
    (req : Request) (e : exn) :
  sent (snd (invoke APP_ID APP_KEY net c st)) = sent st ++ [req] ->
  transport_failure (net (sent st) req) e ->
  invoke APP_ID APP_KEY net c st =
  (Returns (error_object (exc_str e)),
   mkState (sent st ++ [req])
     (logged st ++ ["Error making request to " ++ req_url req ++ ": "
                      ++ exc_str e]%string)).
Proof.
  destruct (invoke_is_call c) as (endpoint & params & Hcall & _).
  rewrite Hcall, call_school_digger_api_sent.
  intros Hreq Hfail. apply app_inv_head in Hreq. injection Hreq as <-.
  now apply call_school_digger_api_failure.
Qed.

(** C2: every invocation of any of the five tools hands [requests.get] a
    parameter dict with the keys [appID] and [appKey], bound to the
    process-wide credentials whatever the arguments of the tool are. *)
Theorem credentials_always_sent (c : tool_call) (st : State) :
  exists req : Request,
    sent (snd (invoke APP_ID APP_KEY net c st)) = sent st ++ [req] /\
    getitem (req_params req) "appID" = Some (opt_str APP_ID) /\
    getitem (req_params req) "appKey" = Some (opt_str APP_KEY).
Proof.
  destruct (invoke_is_call c) as (endpoint & params & Hcall & Hkeys).
  exists (upstream_request APP_ID APP_KEY endpoint params).
  rewrite Hcall. split; [apply call_school_digger_api_sent|].
  destruct params as [d|]; simpl; [|split; reflexivity].
  destruct (Hkeys d eq_refl) as (Hwf & Hid & Hkey).
  rewrite !getitem_update by assumption. rewrite Hid, Hkey. split; reflexivity.
Qed.

(** C9: at the level of the shared primitive, a [params] dict that has the key
    [appID] or [appKey] overrides the credential: [params] is applied on top
    of the credential dict, so the request carries the value that [params]
    has for that key. *)
Theorem params_override_credentials (endpoint : string) (d : dict) (st : State) :
  wf_dict d ->
  exists req : Request,
    sent (snd (call_school_digger_api APP_ID APP_KEY net endpoint (Some d) st)) =
      sent st ++ [req] /\
    req_params req = update [("appID", opt_str APP_ID); ("appKey", opt_str APP_KEY)] d /\
    (forall v, getitem d "appID" = Some v ->
               getitem (req_params req) "appID" = Some v) /\
    (forall v, getitem d "appKey" = Some v ->
               getitem (req_params req) "appKey" = Some v).
Proof.
  intros Hwf.
  exists (upstream_request APP_ID APP_KEY endpoint (Some d)).
  split; [apply call_school_digger_api_sent|].
  split; [reflexivity|].
  split; intros v Hv; simpl; now apply getitem_update_present.
Qed.

(** C3: in [search_schools] and [search_districts] an optional argument that
    is unset or empty puts no key in the parameters of the request (the key is
    absent, not bound to the empty string), while [perPage] and the sort key
    ([sortBy] for schools, [sort] for districts) are always there, with the
    defaults 5 and ["rank"] when the caller gives nothing. *)
Theorem optional_arguments_omitted :
  (forall (query city state zip_code school_level sort_by : option string)
          (per_page : option Z) (st : State),
      exists req : Request,
        sent (snd (search_schools APP_ID APP_KEY net query city state zip_code
                     school_level sort_by per_page st)) = sent st ++ [req] /\
        (unset_or_empty query -> getitem (req_params req) "q" = None) /\
        (unset_or_empty city -> getitem (req_params req) "city" = None) /\
        (unset_or_empty state -> getitem (req_params req) "st" = None) /\
        (unset_or_empty zip_code -> getitem (req_params req) "zip" = None) /\
        (unset_or_empty school_level -> getitem (req_params req) "level" = None) /\
        getitem (req_params req) "perPage" = Some (VInt (arg_default 5 per_page)) /\
        getitem (req_params req) "sortBy" =
          Some (VStr (arg_default "rank"%string sort_by))) /\
  (forall (city state query zip_code sort_by : option string)
          (per_page : option Z) (st : State),
      exists req : Request,
        sent (snd (search_districts APP_ID APP_KEY net city state query zip_code
                     sort_by per_page st)) = sent st ++ [req] /\
        (unset_or_empty city -> getitem (req_params req) "city" = None) /\
        (unset_or_empty state -> getitem (req_params req) "st" = None) /\
        (unset_or_empty zip_code -> getitem (req_params req) "zip" = None) /\
        (unset_or_empty query -> getitem (req_params req) "q" = None) /\
        getitem (req_params req) "perPage" = Some (VInt (arg_default 5 per_page)) /\
        getitem (req_params req) "sort" =
          Some (VStr (arg_default "rank"%string sort_by))).
Proof.
  split; intros; eexists;
    (split; [apply call_school_digger_api_sent|]);
    unfold upstream_request, req_params, credentials;
    repeat split;
    try (intros Hx; apply unset_or_empty_falsy in Hx);
    lookup; try rewrite Hx; reflexivity.
Qed.

(** C4: [search_schools(city="Cypress", state="CA")] passes the shared
    primitive exactly [perPage=5], [sortBy="rank"], [city="Cypress"] and
    [st="CA"]; the request it issues has those four parameters after the two
    credentials and no [q], [zip] or [level] key. *)
Theorem search_schools_cypress (st : State) :
  let call := search_schools APP_ID APP_KEY net
                None (Some "Cypress") (Some "CA") None None None None in
  call = call_school_digger_api APP_ID APP_KEY net "schools"
           (Some [("perPage", VInt 5); ("sortBy", VStr "rank");
                  ("city", VStr "Cypress"); ("st", VStr "CA")]) /\
  exists req : Request,
    sent (snd (call st)) = sent st ++ [req] /\
    req = mkRequest "https://api.schooldigger.com/v2.3/schools"
            [("appID", opt_str APP_ID); ("appKey", opt_str APP_KEY);
             ("perPage", VInt 5); ("sortBy", VStr "rank");
             ("city", VStr "Cypress"); ("st", VStr "CA")] /\
    getitem (req_params req) "q" = None /\
    getitem (req_params req) "zip" = None /\
    getitem (req_params req) "level" = None.
Proof.
  split; [reflexivity|].
  eexists. split; [apply call_school_digger_api_sent|].
  repeat split.
Qed.

(** C5: [search_districts(state="TX", zip_code="77433")] passes the shared
    primitive exactly [perPage=5], [sort="rank"], [st="TX"] and
    [zip="77433"]: the sort key is [sort], there is no [sortBy], and no
    [city] or [q] key. *)
Theorem search_districts_tx (st : State) :
  let call := search_districts APP_ID APP_KEY net
                None (Some "TX") None (Some "77433") None None in
  call = call_school_digger_api APP_ID APP_KEY net "districts"
           (Some [("perPage", VInt 5); ("sort", VStr "rank");
                  ("st", VStr "TX"); ("zip", VStr "77433")]) /\
  exists req : Request,
    sent (snd (call st)) = sent st ++ [req] /\
    req = mkRequest "https://api.schooldigger.com/v2.3/districts"
            [("appID", opt_str APP_ID); ("appKey", opt_str APP_KEY);
             ("perPage", VInt 5); ("sort", VStr "rank");
             ("st", VStr "TX"); ("zip", VStr "77433")] /\
    getitem (req_params req) "sortBy" = None /\
    getitem (req_params req) "city" = None /\
    getitem (req_params req) "q" = None.
Proof.
  split; [reflexivity|].
  eexists. split; [apply call_school_digger_api_sent|].
  repeat split.
Qed.

(** C6: [get_school_details("0601710")] issues one GET request, to the base URL
    followed by exactly [schools/0601710], whose parameters are exactly the
    two credential keys [appID] and [appKey]. *)
Theorem get_school_details_request (st : State) :
  sent (snd (get_school_details APP_ID APP_KEY net "0601710" st)) =
  sent st ++
    [mkRequest (SCHOOL_DIGGER_BASE_API ++ "schools/0601710")
       [("appID", opt_str APP_ID); ("appKey", opt_str APP_KEY)]].
Proof.
  unfold get_school_details. now rewrite call_school_digger_api_sent.
Qed.

(** C10: [search_autocomplete_schools] always sends exactly [q] and
    [returnCount] after the credentials, to [autocomplete/schools]: an empty
    query is sent as [q=""], not left out, and [max_results] is 10 when the
    caller gives none. *)
Theorem autocomplete_always_sends_q (query : string) (max_results : option Z)
    (st : State) :
  sent (snd (search_autocomplete_schools APP_ID APP_KEY net query max_results st)) =
    sent st ++
      [mkRequest "https://api.schooldigger.com/v2.3/autocomplete/schools"
         [("appID", opt_str APP_ID); ("appKey", opt_str APP_KEY);
          ("q", VStr query);
          ("returnCount", VInt (arg_default 10 max_results))]] /\
  sent (snd (search_autocomplete_schools APP_ID APP_KEY net "" None st)) =
    sent st ++
      [mkRequest "https://api.schooldigger.com/v2.3/autocomplete/schools"
         [("appID", opt_str APP_ID); ("appKey", opt_str APP_KEY);
          ("q", VStr ""); ("returnCount", VInt 10)]].
Proof.
  unfold search_autocomplete_schools.
  split; now rewrite call_school_digger_api_sent.
Qed.

End Properties.

(** ** The static resource and repeated calls *)

(** C7: every read of [schooldigger://school-levels] returns the same fixed
    text and touches nothing -- no request, no log line, whatever the state of
    the process; the function takes no credentials, arguments or network --
    and the text names the five codes Elementary, Middle, High, Private and
    Alt, one a line. *)
Theorem school_levels_fixed :
  (forall st1 st2 : State,
      fst (get_school_levels st1) = fst (get_school_levels st2)) /\
  (forall st : State, exists text : string,
      get_school_levels st = (Returns text, st) /\
      level_codes text = ["Elementary"; "Middle"; "High"; "Private"; "Alt"]%string).
Proof.
  split; [reflexivity|].
  intros st. eexists. split; reflexivity.
Qed.

(** C8: for every tool, two invocations with the same arguments issue two
    requests of their own, with identical URL and identical parameters in
    identical order: the request is a function of the arguments and the
    credentials, whatever the network answered to the first one and whatever
    was sent before. *)
Theorem same_call_same_request (APP_ID APP_KEY : option string) (c : tool_call) :
  exists req : Request,
    forall (net : Net) (st : State),
      let first := invoke APP_ID APP_KEY net c st in
      let second := invoke APP_ID APP_KEY net c (snd first) in
      sent (snd first) = sent st ++ [req] /\
      sent (snd second) = sent st ++ [req; req].
Proof.
  destruct (ToolFacts.invoke_sent APP_ID APP_KEY c) as [req Hreq].
  exists req. intros net st first second. subst first second.
  rewrite !Hreq. split; [reflexivity|]. now rewrite <- app_assoc.
Qed.

(** ** Concrete runs *)

(** C1 as the spec words it, with any non-2xx status: refuted by an upstream
    that answers [300 Multiple Choices] with a JSON body, which
    [raise_for_status] lets through, so that the body itself is returned. *)
Lemma non_2xx_status_can_return_the_body :
  invoke None None net_multiple_choices (GetSchoolDetails "0601710") st0 =
    (Returns (VDict [("schoolList", VList [])]),
     mkState [mkRequest "https://api.schooldigger.com/v2.3/schools/0601710"
                [("appID", VNone); ("appKey", VNone)]] []) /\
  ~ (forall APP_ID APP_KEY net c st req,
        sent (snd (invoke APP_ID APP_KEY net c st)) = sent st ++ [req] ->
        failure_or_non_2xx (net (sent st) req) ->
        exists msg : string,
          fst (invoke APP_ID APP_KEY net c st) = Returns (error_object msg)).
Proof.
  split; [reflexivity|].
  intros H.
  destruct (H None None net_multiple_choices (GetSchoolDetails "0601710") st0
              _ eq_refl) as [msg Hmsg].
  - apply f_non_2xx. simpl. lia.
  - discriminate Hmsg.
Qed.

Lemma transport_failure_gives_error_object_witness :
  invoke None None net_not_found (GetSchoolDetails "0601710") st0 =
  (Returns (error_object
     "404 Client Error: Not Found for url: https://api.schooldigger.com/v2.3/schools/0601710"),
   mkState [mkRequest "https://api.schooldigger.com/v2.3/schools/0601710"
              [("appID", VNone); ("appKey", VNone)]]
     ["Error making request to https://api.schooldigger.com/v2.3/schools/0601710: 404 Client Error: Not Found for url: https://api.schooldigger.com/v2.3/schools/0601710"%string]).
Proof.
  apply (transport_failure_gives_error_object None None net_not_found
           (GetSchoolDetails "0601710") st0
           (mkRequest "https://api.schooldigger.com/v2.3/schools/0601710"
              [("appID", VNone); ("appKey", VNone)])
           (mkExn HTTPError
              "404 Client Error: Not Found for url: https://api.schooldigger.com/v2.3/schools/0601710")).
  - reflexivity.
  - apply error_status; [simpl; lia | reflexivity].
Defined.

Lemma params_override_credentials_witness :
  exists req : Request,
    sent (snd (call_school_digger_api (Some "id"%string) (Some "key"%string)
                 net_refused "schools"
                 (Some [("appID", VStr "other")]) st0)) = sent st0 ++ [req] /\
    req_params req =
      PyDict.update [("appID", VStr "id"); ("appKey", VStr "key")]
        [("appID", VStr "other")] /\
    (forall v, PyDict.getitem [("appID", VStr "other")] "appID" = Some v ->
               PyDict.getitem (req_params req) "appID" = Some v) /\
    (forall v, PyDict.getitem [("appID", VStr "other")] "appKey" = Some v ->
               PyDict.getitem (req_params req) "appKey" = Some v).
Proof.
  apply (params_override_credentials (Some "id"%string) (Some "key"%string)
           net_refused "schools" [("appID", VStr "other")] st0).
  constructor; [simpl; tauto | constructor].
Defined.

Lemma optional_arguments_omitted_witness :
  exists req : Request,
    sent (snd (search_schools None None net_refused
                 None (Some ""%string) (Some "CA"%string) None None None None st0))
      = sent st0 ++ [req] /\
    PyDict.getitem (req_params req) "q" = None /\
    PyDict.getitem (req_params req) "city" = None /\
    PyDict.getitem (req_params req) "perPage" = Some (VInt 5).
Proof.
  destruct (optional_arguments_omitted None None net_refused) as [Hschools _].
  destruct (Hschools None (Some ""%string) (Some "CA"%string) None None None None st0)
    as (req & Hsent & Hq & Hcity & _ & _ & _ & Hpage & _).
  exists req. repeat split.
  - exact Hsent.
  - apply Hq. left. reflexivity.
  - apply Hcity. right. reflexivity.
  - exact Hpage.
Defined.

(** ** Further properties of the shared primitive and the tools *)

Section Outcomes.
Import PyDict PyDictFacts ToolFacts.

Variables APP_ID APP_KEY : option string.
Variable net : Net.

Lemma no_http_error (r : Response) :
  ~ (400 <= status_code r < 600) -> Requests.http_error r = None.
Proof.
  intros Hok. destruct (Requests.http_error r) as [e|] eqn:E; [|reflexivity].
  exfalso. apply Hok. apply http_error_status. now exists e.
Qed.

Lemma not_caught (e : exn) :
  is_RequestException (exc_type e) = false <-> exc_type e = NotRequestException.
Proof. destruct (exc_type e); simpl; split; congruence. Qed.

(** What an invocation does, by the answer to the request it issued. *)
Lemma invoke_run (c : tool_call) (st : State) (req : Request) :
  sent (snd (invoke APP_ID APP_KEY net c st)) = sent st ++ [req] ->
  let st1 := mkState (sent st ++ [req]) (logged st) in
  let failed (e : exn) :=
    if is_RequestException (exc_type e)
    then (Returns (error_object (exc_str e)),
          mkState (sent st1)
            (logged st1 ++ ["Error making request to " ++ req_url req ++ ": "
                              ++ exc_str e]%string))
    else (Raises e, st1) in
  invoke APP_ID APP_KEY net c st =
  match net (sent st) req with
  | Raises e => failed e
  | Returns r =>
      match Requests.http_error r with
      | Some e => failed e
      | None =>
          match resp_json r with
          | Returns v => (Returns v, st1)
          | Raises e => failed e
          end
      end
  end.
Proof.
  destruct (invoke_is_call c) as (endpoint & params & Hcall & _).
  rewrite Hcall, call_school_digger_api_sent.
  intros Hreq. apply app_inv_head in Hreq. injection Hreq as <-.
  apply call_school_digger_api_run.
Qed.

(** X1: when the upstream answers with a status that is no 4xx or 5xx and a
    body that decodes, the invocation returns the decoded body as it is,
    whatever its shape, and logs nothing. *)
Theorem success_returns_body (c : tool_call) (st : State) (req : Request)
    (r : Response) (v : value) :
  sent (snd (invoke APP_ID APP_KEY net c st)) = sent st ++ [req] ->
  net (sent st) req = Returns r ->
  ~ (400 <= status_code r < 600) ->
  resp_json r = Returns v ->
  invoke APP_ID APP_KEY net c st =
  (Returns v, mkState (sent st ++ [req]) (logged st)).
Proof.
  intros Hreq Hnet Hok Hjson. rewrite (invoke_run c st req Hreq).
  now rewrite Hnet, (no_http_error r Hok), Hjson.
Qed.

(** X2: an exception that is no [RequestException], raised by [requests.get]
    or by [json()] on a response that passed [raise_for_status], is not
    caught: it leaves the tool as it is, nothing is logged, and no error
    object is made. *)
Theorem foreign_exception_escapes (c : tool_call) (st : State) (req : Request)
    (e : exn) :
  sent (snd (invoke APP_ID APP_KEY net c st)) = sent st ++ [req] ->
  exc_type e = NotRequestException ->
  net (sent st) req = Raises e \/
  (exists r : Response,
      net (sent st) req = Returns r /\
      ~ (400 <= status_code r < 600) /\
      resp_json r = Raises e) ->
  invoke APP_ID APP_KEY net c st =
  (Raises e, mkState (sent st ++ [req]) (logged st)).
Proof.
  intros Hreq Hty Hcase. rewrite (invoke_run c st req Hreq).
  destruct Hcase as [Hnet|(r & Hnet & Hok & Hjson)].
  - now rewrite Hnet, Hty.
  - now rewrite Hnet, (no_http_error r Hok), Hjson, Hty.
Qed.

(** X3: whatever the upstream does, an exception that leaves a tool is never
    a [RequestException]: those are all turned into a result. *)
Theorem never_raises_request_exception (c : tool_call) (st : State) (e : exn) :
  fst (invoke APP_ID APP_KEY net c st) = Raises e ->
  exc_type e = NotRequestException.
Proof.
  destruct (invoke_sent APP_ID APP_KEY c) as [req Hreq].
  rewrite (invoke_run c st req (Hreq net st)).
  destruct (net (sent st) req) as [r|e0].
  - destruct (Requests.http_error r) as [e1|].
    + destruct (is_RequestException (exc_type e1)) eqn:E; simpl; [discriminate|].
      intros [= <-]. now apply not_caught.
    + destruct (resp_json r) as [v|e1]; simpl; [discriminate|].
      destruct (is_RequestException (exc_type e1)) eqn:E; simpl; [discriminate|].
      intros [= <-]. now apply not_caught.
  - destruct (is_RequestException (exc_type e0)) eqn:E; simpl; [discriminate|].
    intros [= <-]. now apply not_caught.
Qed.

(** X4: every [RequestException], not only the transport failures -- any
    subclass raised by [requests.get], or the library's own [JSONDecodeError]
    for a body that does not decode under a good status -- gives the error
    object with the message of the exception, and one log line. *)
Theorem request_exception_gives_error_object (c : tool_call) (st : State)
    (req : Request) (e : exn) :
  sent (snd (invoke APP_ID APP_KEY net c st)) = sent st ++ [req] ->
  is_RequestException (exc_type e) = true ->
  net (sent st) req = Raises e \/
  (exists r : Response,
      net (sent st) req = Returns r /\
      ~ (400 <= status_code r < 600) /\
      resp_json r = Raises e) ->
  invoke APP_ID APP_KEY net c st =
  (Returns (error_object (exc_str e)),
   mkState (sent st ++ [req])
     (logged st ++ ["Error making request to " ++ req_url req ++ ": "
                      ++ exc_str e]%string)).
Proof.
  intros Hreq Hty Hcase. rewrite (invoke_run c st req Hreq).
  destruct Hcase as [Hnet|(r & Hnet & Hok & Hjson)].
  - now rewrite Hnet, Hty.
  - now rewrite Hnet, (no_http_error r Hok), Hjson, Hty.
Qed.

(** X5: an invocation writes to the log at most once, and only together with
    an error object: either the log is as it was, or the result is
    [{"error": msg}] and the one new line is
    [Error making request to <url>: <msg>], with the URL of the request (no
    query parameters) and the same message. *)
Theorem log_only_with_error_object (c : tool_call) (st : State) :
  logged (snd (invoke APP_ID APP_KEY net c st)) = logged st \/
  exists (req : Request) (msg : string),
    sent (snd (invoke APP_ID APP_KEY net c st)) = sent st ++ [req] /\
    fst (invoke APP_ID APP_KEY net c st) = Returns (error_object msg) /\
    logged (snd (invoke APP_ID APP_KEY net c st)) =
      logged st ++ ["Error making request to " ++ req_url req ++ ": " ++ msg]%string.
Proof.
  destruct (invoke_sent APP_ID APP_KEY c) as [req Hreq].
  pose proof (Hreq net st) as Hsent.
  assert (Hcaught : forall e,
    invoke APP_ID APP_KEY net c st =
      (if is_RequestException (exc_type e)
       then (Returns (error_object (exc_str e)),
             mkState (sent st ++ [req])
               (logged st ++ ["Error making request to " ++ req_url req ++ ": "
                                ++ exc_str e]%string))
       else (Raises e, mkState (sent st ++ [req]) (logged st))) ->
    logged (snd (invoke APP_ID APP_KEY net c st)) = logged st \/
    exists (req : Request) (msg : string),
      sent (snd (invoke APP_ID APP_KEY net c st)) = sent st ++ [req] /\
      fst (invoke APP_ID APP_KEY net c st) = Returns (error_object msg) /\
      logged (snd (invoke APP_ID APP_KEY net c st)) =
        logged st ++ ["Error making request to " ++ req_url req ++ ": " ++ msg]%string).
  { intros e He. destruct (is_RequestException (exc_type e)).
    - right. exists req, (exc_str e). rewrite He. repeat split.
    - left. now rewrite He. }
  pose proof (invoke_run c st req Hsent) as Hrun. simpl in Hrun.
  destruct (net (sent st) req) as [r|e]; [|now apply (Hcaught e)].
  destruct (Requests.http_error r) as [e|]; [now apply (Hcaught e)|].
  destruct (resp_json r) as [v|e]; [|now apply (Hcaught e)].
  left. now rewrite Hrun.
Qed.

(** X6: the result of an invocation depends on the process only through the
    answer to its request: with the same credentials and arguments, two runs
    whose requests get the same answer return the same, whatever was sent or
    logged before and whatever the networks do otherwise. *)
Theorem result_depends_on_answer_only (net' : Net) (c : tool_call)
    (st st' : State) (req : Request) :
  sent (snd (invoke APP_ID APP_KEY net c st)) = sent st ++ [req] ->
  net (sent st) req = net' (sent st') req ->
  fst (invoke APP_ID APP_KEY net c st) = fst (invoke APP_ID APP_KEY net' c st').
Proof.
  intros Hreq Hsame.
  destruct (invoke_sent APP_ID APP_KEY c) as [req0 Hreq0].
  assert (req0 = req) as ->.
  { rewrite Hreq0 in Hreq. apply app_inv_head in Hreq. now injection Hreq. }
  destruct (invoke_is_call c) as (endpoint & params & Hcall & _).
  pose proof (Hreq0 net st) as H1. pose proof (Hreq0 net' st') as H2.
  rewrite !Hcall in *. rewrite call_school_digger_api_sent in H1, H2.
  apply app_inv_head in H1, H2.
  rewrite !call_school_digger_api_run. simpl.
  injection H1 as H1. injection H2 as H2. rewrite H1, <- Hsame.
  destruct (net (sent st) req) as [r|e].
  - destruct (Requests.http_error r) as [e|].
    + destruct (is_RequestException _); reflexivity.
    + destruct (resp_json r) as [v|e]; [reflexivity|].
      destruct (is_RequestException _); reflexivity.
  - destruct (is_RequestException _); reflexivity.
Qed.

End Outcomes.

Section Requests_of_tools.
Import PyDict PyDictFacts ToolFacts.

Variables APP_ID APP_KEY : option string.
Variable net : Net.

(** X7: the two detail tools put the identifier in the path as it is given,
    for every identifier -- empty, with a slash, with a question mark: no
    check, no quoting -- and send nothing but the two credentials. *)
Theorem detail_tools_request (id : string) (st : State) :
  sent (snd (get_school_details APP_ID APP_KEY net id st)) =
    sent st ++
      [mkRequest ("https://api.schooldigger.com/v2.3/schools/" ++ id)
         [("appID", opt_str APP_ID); ("appKey", opt_str APP_KEY)]] /\
  sent (snd (get_district_details APP_ID APP_KEY net id st)) =
    sent st ++
      [mkRequest ("https://api.schooldigger.com/v2.3/districts/" ++ id)
         [("appID", opt_str APP_ID); ("appKey", opt_str APP_KEY)]].
Proof.
  unfold get_school_details, get_district_details.
  split; now rewrite call_school_digger_api_sent.
Qed.

(** X8: the request of [search_schools], in closed form for all arguments:
    the credentials, then [perPage] and [sortBy], then one parameter for each
    optional argument that is a non-empty string, in the order [q], [city],
    [st], [zip], [level]; nothing else, and no key twice. *)
Theorem search_schools_request
    (query city state zip_code school_level sort_by : option string)
    (per_page : option Z) (st : State) :
  sent (snd (search_schools APP_ID APP_KEY net query city state zip_code
               school_level sort_by per_page st)) =
  sent st ++
    [mkRequest "https://api.schooldigger.com/v2.3/schools"
       ([("appID", opt_str APP_ID); ("appKey", opt_str APP_KEY);
         ("perPage", VInt (arg_default 5 per_page));
         ("sortBy", VStr (arg_default "rank"%string sort_by))]
        ++ param_if_set "q" query ++ param_if_set "city" city
        ++ param_if_set "st" state ++ param_if_set "zip" zip_code
        ++ param_if_set "level" school_level)].
Proof.
  unfold search_schools. rewrite call_school_digger_api_sent.
  do 2 f_equal.
  destruct query as [[|? ?]|], city as [[|? ?]|], state as [[|? ?]|],
    zip_code as [[|? ?]|], school_level as [[|? ?]|]; reflexivity.
Qed.

(** X9: the request of [search_districts], in closed form for all arguments:
    the credentials, then [perPage] and [sort], then one parameter for each
    optional argument that is a non-empty string, in the order [city], [st],
    [zip], [q]; never [sortBy] or [level]. *)
Theorem search_districts_request
    (city state query zip_code sort_by : option string)
    (per_page : option Z) (st : State) :
  sent (snd (search_districts APP_ID APP_KEY net city state query zip_code
               sort_by per_page st)) =
  sent st ++
    [mkRequest "https://api.schooldigger.com/v2.3/districts"
       ([("appID", opt_str APP_ID); ("appKey", opt_str APP_KEY);
         ("perPage", VInt (arg_default 5 per_page));
         ("sort", VStr (arg_default "rank"%string sort_by))]
        ++ param_if_set "city" city ++ param_if_set "st" state
        ++ param_if_set "zip" zip_code ++ param_if_set "q" query)].
Proof.
  unfold search_districts. rewrite call_school_digger_api_sent.
  do 2 f_equal.
  destruct city as [[|? ?]|], state as [[|? ?]|], zip_code as [[|? ?]|],
    query as [[|? ?]|]; reflexivity.
Qed.

End Requests_of_tools.

Module MergeFacts.
Import PyDict PyDictFacts.

Lemma mem_key_In (k : string) (ks : list string) :
  mem_key k ks = true <-> In k ks.
Proof.
  unfold mem_key. rewrite existsb_exists. split.
  - intros (x & Hin & Heq). apply String.eqb_eq in Heq. now subst.
  - intros Hin. exists k. split; [assumption | apply String.eqb_refl].
Qed.

Lemma mem_key_false (k : string) (ks : list string) :
  mem_key k ks = false <-> ~ In k ks.
Proof.
  rewrite <- mem_key_In. destruct (mem_key k ks); split; congruence.
Qed.

(** The keys after [d.update(other)]: those of [d] in their order, then the
    new ones of [other] in theirs. *)
Lemma keys_update (d other : dict) :
  wf_dict other ->
  keys (update d other) =
  keys d ++ filter (fun k => negb (mem_key k (keys d))) (keys other).
Proof.
  revert d. induction other as [|[k v] other IH]; intros d Hwf.
  - simpl. now rewrite app_nil_r.
  - rewrite update_cons. unfold wf_dict in Hwf. simpl in Hwf.
    inversion Hwf as [|? ? Hnin Hwf']. subst.
    rewrite IH by exact Hwf'. simpl.
    destruct (mem_key k (keys d)) eqn:E; simpl.
    + apply mem_key_In in E. now rewrite keys_setitem_present.
    + apply mem_key_false in E. rewrite keys_setitem_absent by assumption.
      rewrite <- app_assoc. simpl. do 2 f_equal.
      apply filter_ext_in. intros k' Hk'. f_equal.
      unfold mem_key. rewrite existsb_app. simpl.
      destruct (k' =? k)%string eqn:Ek; [|now rewrite !orb_false_r].
      apply String.eqb_eq in Ek. subst. contradiction.
Qed.

Lemma lstrip_slash_no_slash (s : string) :
  starts_with_slash (lstrip "/" s) = false.
Proof.
  induction s as [|c s IH]; simpl; [reflexivity|].
  destruct (Ascii.eqb c "/") eqn:E; simpl; [assumption | now rewrite E].
Qed.

Lemma lstrip_slash_fixed (s : string) :
  starts_with_slash s = false -> lstrip "/" s = s.
Proof.
  destruct s as [|c s]; simpl; [reflexivity|].
  now intros ->.
Qed.

End MergeFacts.

Section Primitive.
Import PyDict PyDictFacts ToolFacts MergeFacts.

Variables APP_ID APP_KEY : option string.
Variable net : Net.

(** X10: the parameters of a request are [params] on top of the credentials,
    key by key: a key that [params] has carries the value of [params], any
    other key carries the credential if it is [appID] or [appKey] and is
    absent otherwise; no [params] and an empty [params] give the same. *)
Theorem merged_params_lookup (endpoint : string) (params : option dict)
    (st : State) :
  let d := match params with Some d => d | None => [] end in
  wf_dict d ->
  exists req : Request,
    sent (snd (call_school_digger_api APP_ID APP_KEY net endpoint params st)) =
      sent st ++ [req] /\
    forall k : string,
      getitem (req_params req) k =
      match getitem d k with
      | Some v => Some v
      | None =>
          if (k =? "appID")%string then Some (opt_str APP_ID)
          else if (k =? "appKey")%string then Some (opt_str APP_KEY)
          else None
      end.
Proof.
  intros d Hwf. exists (upstream_request APP_ID APP_KEY endpoint params).
  split; [apply call_school_digger_api_sent|].
  intros k.
  assert (req_params (upstream_request APP_ID APP_KEY endpoint params) =
          update (credentials APP_ID APP_KEY) d) as ->
    by (subst d; destruct params; reflexivity).
  rewrite getitem_update by assumption.
  destruct (getitem d k); [reflexivity|].
  unfold credentials. cbn [getitem].
  rewrite (String.eqb_sym "appID" k), (String.eqb_sym "appKey" k).
  reflexivity.
Qed.

(** X11: in the parameters of a request [appID] and [appKey] always come
    first, in that order, also when [params] has them; the other keys of
    [params] follow in the order of [params], each once. *)
Theorem credential_keys_first (endpoint : string) (d : dict) (st : State) :
  wf_dict d ->
  exists req : Request,
    sent (snd (call_school_digger_api APP_ID APP_KEY net endpoint (Some d) st)) =
      sent st ++ [req] /\
    keys (req_params req) =
      "appID"%string :: "appKey"%string ::
        filter (fun k => negb (mem_key k ["appID"; "appKey"]%string)) (keys d) /\
    wf_dict (req_params req).
Proof.
  intros Hwf. exists (upstream_request APP_ID APP_KEY endpoint (Some d)).
  split; [apply call_school_digger_api_sent|]. simpl. split.
  - now rewrite keys_update.
  - apply update_wf. repeat constructor; simpl; intuition discriminate.
Qed.

(** X12: leading slashes of the endpoint do not count: the path that follows
    the base URL never starts with a slash, and an endpoint with its leading
    slashes removed gives the same call. *)
Theorem leading_slashes_ignored (endpoint : string) (params : option dict)
    (st : State) :
  (exists (path : string) (ps : dict),
      sent (snd (call_school_digger_api APP_ID APP_KEY net endpoint params st)) =
        sent st ++ [mkRequest (SCHOOL_DIGGER_BASE_API ++ path) ps] /\
      starts_with_slash path = false) /\
  call_school_digger_api APP_ID APP_KEY net ("/" ++ endpoint) params st =
    call_school_digger_api APP_ID APP_KEY net endpoint params st /\
  call_school_digger_api APP_ID APP_KEY net (lstrip "/" endpoint) params st =
    call_school_digger_api APP_ID APP_KEY net endpoint params st.
Proof.
  split; [|split].
  - eexists. eexists. split; [apply call_school_digger_api_sent|].
    apply lstrip_slash_no_slash.
  - reflexivity.
  - unfold call_school_digger_api.
    now rewrite (lstrip_slash_fixed _ (lstrip_slash_no_slash endpoint)).
Qed.

End Primitive.

(** ** Concrete runs of the further properties *)

Lemma success_returns_body_witness :
  invoke None None net_ok (GetDistrictDetails "4833120") st0 =
  (Returns (VDict [("schoolList", VList [])]),
   mkState
     (sent st0 ++
        [mkRequest "https://api.schooldigger.com/v2.3/districts/4833120"
           [("appID", VNone); ("appKey", VNone)]])
     (logged st0)).
Proof.
  apply (success_returns_body None None net_ok (GetDistrictDetails "4833120") st0
           (mkRequest "https://api.schooldigger.com/v2.3/districts/4833120"
              [("appID", VNone); ("appKey", VNone)])
           (mkResponse 200 "OK"
              "https://api.schooldigger.com/v2.3/districts/4833120"
              (Returns (VDict [("schoolList", VList [])])))
           (VDict [("schoolList", VList [])])).
  - reflexivity.
  - reflexivity.
  - simpl. lia.
  - reflexivity.
Defined.

Lemma foreign_exception_escapes_witness :
  invoke None None net_value_error (GetSchoolDetails "0601710") st0 =
  (Raises (mkExn NotRequestException "Expecting value: line 1 column 1 (char 0)"),
   mkState
     (sent st0 ++
        [mkRequest "https://api.schooldigger.com/v2.3/schools/0601710"
           [("appID", VNone); ("appKey", VNone)]])
     (logged st0)).
Proof.
  apply (foreign_exception_escapes None None net_value_error
           (GetSchoolDetails "0601710") st0
           (mkRequest "https://api.schooldigger.com/v2.3/schools/0601710"
              [("appID", VNone); ("appKey", VNone)])
           (mkExn NotRequestException "Expecting value: line 1 column 1 (char 0)")).
  - reflexivity.
  - reflexivity.
  - right.
    exists (mkResponse 200 "OK"
              "https://api.schooldigger.com/v2.3/schools/0601710"
              (Raises (mkExn NotRequestException
                         "Expecting value: line 1 column 1 (char 0)"))).
    split; [reflexivity|]. split; [simpl; lia | reflexivity].
Defined.

Lemma never_raises_request_exception_witness :
  exc_type (mkExn NotRequestException "Expecting value: line 1 column 1 (char 0)")
  = NotRequestException.
Proof.
  apply (never_raises_request_exception None None net_value_error
           (GetSchoolDetails "0601710") st0).
  reflexivity.
Defined.

Lemma request_exception_gives_error_object_witness :
  invoke None None net_bad_json
    (SearchAutocompleteSchools "Linc" None) st0 =
  (Returns (error_object "Expecting value: line 1 column 1 (char 0)"),
   mkState
     (sent st0 ++
        [mkRequest "https://api.schooldigger.com/v2.3/autocomplete/schools"
           [("appID", VNone); ("appKey", VNone);
            ("q", VStr "Linc"); ("returnCount", VInt 10)]])
     (logged st0 ++
        ["Error making request to https://api.schooldigger.com/v2.3/autocomplete/schools: Expecting value: line 1 column 1 (char 0)"%string])).
Proof.
  apply (request_exception_gives_error_object None None net_bad_json
           (SearchAutocompleteSchools "Linc" None) st0
           (mkRequest "https://api.schooldigger.com/v2.3/autocomplete/schools"
              [("appID", VNone); ("appKey", VNone);
               ("q", VStr "Linc"); ("returnCount", VInt 10)])
           (mkExn JSONDecodeError "Expecting value: line 1 column 1 (char 0)")).
  - reflexivity.
  - reflexivity.
  - right.
    exists (mkResponse 200 "OK"
              "https://api.schooldigger.com/v2.3/autocomplete/schools"
              (Raises (mkExn JSONDecodeError
                         "Expecting value: line 1 column 1 (char 0)"))).
    split; [reflexivity|]. split; [simpl; lia | reflexivity].
Defined.

Lemma result_depends_on_answer_only_witness :
  let req := mkRequest "https://api.schooldigger.com/v2.3/districts/4833120"
               [("appID", VStr "id"); ("appKey", VStr "key")] in
  fst (invoke (Some "id"%string) (Some "key"%string) net_flaky
         (GetDistrictDetails "4833120")
         (mkState [req] ["Error making request to x: Read timed out."%string])) =
  fst (invoke (Some "id"%string) (Some "key"%string) net_flaky
         (GetDistrictDetails "4833120") (mkState [req; req; req] [])).
Proof.
  apply (result_depends_on_answer_only (Some "id"%string) (Some "key"%string)
           net_flaky net_flaky (GetDistrictDetails "4833120")
           (mkState
              [mkRequest "https://api.schooldigger.com/v2.3/districts/4833120"
                 [("appID", VStr "id"); ("appKey", VStr "key")]]
              ["Error making request to x: Read timed out."%string])
           (mkState
              (let r := mkRequest "https://api.schooldigger.com/v2.3/districts/4833120"
                          [("appID", VStr "id"); ("appKey", VStr "key")] in
               [r; r; r]) [])
           (mkRequest "https://api.schooldigger.com/v2.3/districts/4833120"
              [("appID", VStr "id"); ("appKey", VStr "key")])).
  - reflexivity.
  - reflexivity.
Defined.

Lemma merged_params_lookup_witness :
  exists req : Request,
    sent (snd (call_school_digger_api (Some "id"%string) None net_refused
                 "schools" (Some [("q", VStr "Lincoln")]) st0)) =
      sent st0 ++ [req] /\
    forall k : string,
      PyDict.getitem (req_params req) k =
      match PyDict.getitem [("q", VStr "Lincoln")] k with
      | Some v => Some v
      | None =>
          if (k =? "appID")%string then Some (VStr "id")
          else if (k =? "appKey")%string then Some VNone
          else None
      end.
Proof.
  apply (merged_params_lookup (Some "id"%string) None net_refused "schools"
           (Some [("q", VStr "Lincoln")]) st0).
  constructor; [simpl; tauto | constructor].
Defined.

Lemma credential_keys_first_witness :
  exists req : Request,
    sent (snd (call_school_digger_api (Some "id"%string) (Some "key"%string)
                 net_refused "schools"
                 (Some [("q", VStr "Lincoln"); ("appKey", VStr "other")]) st0)) =
      sent st0 ++ [req] /\
    PyDict.keys (req_params req) = ["appID"; "appKey"; "q"]%string /\
    wf_dict (req_params req).
Proof.
  apply (credential_keys_first (Some "id"%string) (Some "key"%string)
           net_refused "schools"
           [("q", VStr "Lincoln"); ("appKey", VStr "other")] st0).
  constructor; [simpl; intuition discriminate|].
  constructor; [simpl; tauto | constructor].
Defined.
